(** * music-dl: a shallow embedding of [main.py]

    The program is a thin orchestrator around two collaborators: the
    extraction library (yt_dlp) and the operating system (PATH lookup,
    directory creation, standard input).  Everything the script itself
    decides is control flow: which collaborator is called, in what order,
    what is printed, and which boolean or exit status comes out.

    The embedding therefore is a small state-and-exception monad:
    - the state is the set of paths that exist on the file system;
    - every observable action (a printed line, a directory creation, a
      session, a probe, a prompt, a download) is logged as an [event];
    - a computation ends by returning, by raising an exception, or by
      leaving the process through [sys.exit];
    - the collaborators are the fields of a [World] record: what they
      answer is not decided by the script, so the theorems quantify over
      every world.

    Python detail kept in the model:
    - [exn] stands for instances of [Exception]; the two handlers of
      [download_audio] split them into [yt_dlp.DownloadError] and the rest.
      [SystemExit] (raised by [sys.exit]) is the separate outcome [Exit].
      Asynchronous interrupts are outside the model.
    - [print] is total and appends one event per call.
    - strings are byte strings; [lower] folds the ASCII letters, which is
      all the membership test in [['y', 'yes']] can observe. *)

From Stdlib Require Import ZArith Ascii String Decimal DecimalString.
From stdpp Require Import base gmap sets list strings.

Local Open Scope string_scope.
Local Open Scope Z_scope.

(** ** Python values used by the script *)

Module Py.

(** Instances of [Exception].  [DownloadError] is the class of
    [yt_dlp.DownloadError]; [OtherError cls msg] is an instance of any other
    subclass of [Exception], [cls] being the name of its class. *)
Inductive exn : Type :=
| DownloadError (msg : string)
| OtherError (cls : string) (msg : string).

(** [str(e)] *)
Definition str_exn (e : exn) : string :=
  match e with
  | DownloadError msg => msg
  | OtherError _ msg => msg
  end.

(** [isinstance(e, yt_dlp.DownloadError)] *)
Definition is_DownloadError (e : exn) : bool :=
  match e with
  | DownloadError _ => true
  | OtherError _ _ => false
  end.

(** What a call into a collaborator gives back. *)
Inductive result (A : Type) : Type :=
| Ok (a : A)
| Err (e : exn).
Arguments Ok {A} a.
Arguments Err {A} e.

(** [str(n)] for an [int]. *)
Definition str_int (n : Z) : string :=
  NilZero.string_of_int (Z.to_int n).

(** Truth value of an [Optional[str]]: [None] and [''] are falsy. *)
Definition truthy (o : option string) : bool :=
  match o with
  | None => false
  | Some EmptyString => false
  | Some (String _ _) => true
  end.

(** [c.lower()] on one ASCII character. *)
Definition lower_ascii (c : ascii) : ascii :=
  let n := nat_of_ascii c in
  if (Nat.leb 65 n && Nat.leb n 90)%bool then ascii_of_nat (n + 32) else c.

(** [s.lower()] *)
Fixpoint lower (s : string) : string :=
  match s with
  | EmptyString => EmptyString
  | String c s' => String (lower_ascii c) (lower s')
  end.

(** [sub in s] for two strings: [sub] occurs somewhere in [s]. *)
Fixpoint str_in (sub s : string) : bool :=
  String.prefix sub s ||
  match s with
  | EmptyString => false
  | String _ s' => str_in sub s'
  end.

(** [x in xs] for a list of strings. *)
Definition in_list (x : string) (xs : list string) : bool :=
  existsb (String.eqb x) xs.

(** [c * n] for a one-character string. *)
Fixpoint str_repeat (c : ascii) (n : nat) : string :=
  match n with
  | O => EmptyString
  | S n' => String c (str_repeat c n')
  end.

(** [os.path.join(a, b)] on a POSIX system. *)
Definition path_join (a b : string) : string :=
  if String.prefix "/" b then b
  else match a with
       | EmptyString => b
       | _ => if String.eqb (substring (String.length a - 1) 1 a) "/"
              then a +:+ b else a +:+ "/" +:+ b
       end.

End Py.
Export Py.

(** The newline character, for the literals that start with one. *)
Definition nl : string := String (ascii_of_nat 10) EmptyString.

(** ** Data exchanged with the extraction library *)

(** One entry of a playlist, as far as the script looks at it: the script
    only asks whether the entry is [None]. *)
Record entry : Type := mk_entry {
  entry_id : string;
  entry_title : option string
}.

(** The dictionary returned by [extract_info]: the two keys the script
    reads.  [None] in a field means that the key is absent. *)
Record info_dict : Type := mk_info {
  info_title : option string;
  info_entries : option (list (option entry))
}.

(** [info.get('title', 'Unknown')] *)
Definition get_title (info : info_dict) : string :=
  match info_title info with
  | Some t => t
  | None => "Unknown"
  end.

Record postprocessor : Type := mk_pp {
  pp_key : string;
  pp_preferredcodec : string;
  pp_preferredquality : string
}.

Record youtube_args : Type := mk_yt_args {
  player_client : list string;
  player_skip : list string
}.

(** The option dictionary [ydl_opts]. *)
Record ydl_options : Type := mk_opts {
  opt_format : string;
  opt_outtmpl : string;
  opt_postprocessors : list postprocessor;
  opt_writethumbnail : bool;
  opt_writeinfojson : bool;
  opt_embed_subs : bool;
  opt_keepvideo : bool;
  opt_ignoreerrors : bool;
  opt_abort_on_unavailable_fragment : bool;
  opt_extractor_args_youtube : youtube_args
}.

(** ** Events, outcomes and the collaborators *)

Inductive event : Type :=
| EvPrint (line : string)                        (* print(line) *)
| EvMakedirs (path : string)                     (* os.makedirs(path) *)
| EvSession (opts : ydl_options)                 (* yt_dlp.YoutubeDL(opts) *)
| EvExtractInfo (url : string) (download : bool) (* ydl.extract_info *)
| EvInput (prompt : string)                      (* input(prompt) *)
| EvDownload (urls : list string)                (* ydl.download(urls) *)
| EvClose.                                       (* end of the with block *)

(** How a computation ends. *)
Inductive outcome (A : Type) : Type :=
| Ret (a : A)        (* normal completion with a value *)
| Raise (e : exn)    (* an exception leaves the computation *)
| Exit (code : Z).   (* sys.exit(code) *)
Arguments Ret {A} a.
Arguments Raise {A} e.
Arguments Exit {A} code.

(** The environment of one run.  The file-system argument of the
    [os] functions is the set of paths that exist when they are called. *)
Record World : Type := mk_world {
  (* shutil.which(name) *)
  shutil_which : string -> option string;
  (* os.makedirs(path): the exception it raises, if any ... *)
  os_makedirs_fault : gset string -> string -> option exn;
  (* ... and the intermediate directories it creates besides [path] *)
  os_makedirs_parents : string -> gset string;
  (* os.path.abspath(path) *)
  os_path_abspath : string -> string;
  (* yt_dlp.YoutubeDL(opts).__enter__(): the exception it raises, if any *)
  ydl_open : ydl_options -> option exn;
  (* ydl.extract_info(url, download=False); the library returns None for
     a target it could not resolve when errors are ignored *)
  ydl_extract_info : ydl_options -> string -> result (option info_dict);
  (* ydl.download(urls): the files it leaves on disk and its ending *)
  ydl_download : ydl_options -> list string -> gset string * result Z;
  (* input(prompt) *)
  stdin_input : string -> result string
}.

(** ** The monad *)

Record run (A : Type) : Type := mk_run {
  result_of : outcome A;
  fs_after : gset string;
  events : list event
}.
Arguments mk_run {A} _ _ _.
Arguments result_of {A} _.
Arguments fs_after {A} _.
Arguments events {A} _.

Definition M (A : Type) : Type := gset string -> run A.

Definition ret {A} (a : A) : M A := fun fs => mk_run (Ret a) fs [].

Definition raise {A} (e : exn) : M A := fun fs => mk_run (Raise e) fs [].

Definition bind {A B} (m : M A) (k : A -> M B) : M B :=
  fun fs =>
    match m fs with
    | mk_run (Ret a) fs1 ev1 =>
        match k a fs1 with
        | mk_run o fs2 ev2 => mk_run o fs2 (ev1 ++ ev2)
        end
    | mk_run (Raise e) fs1 ev1 => mk_run (Raise e) fs1 ev1
    | mk_run (Exit c) fs1 ev1 => mk_run (Exit c) fs1 ev1
    end.

Notation "x <- m ;; k" := (bind m (fun x => k))
  (at level 100, m at next level, right associativity).
Notation "m ;;; k" := (bind m (fun _ => k))
  (at level 100, right associativity).

Definition emit (e : event) : M unit := fun fs => mk_run (Ret tt) fs [e].

(** [try: body except yt_dlp.DownloadError as e: h1 except Exception as e: h2].
    [sys.exit] is not an [Exception] and passes through. *)
Definition try_except {A} (body : M A) (on_download : exn -> M A)
    (on_exception : exn -> M A) : M A :=
  fun fs =>
    match body fs with
    | mk_run (Raise e) fs1 ev1 =>
        match (if is_DownloadError e then on_download e else on_exception e)
                fs1 with
        | mk_run o fs2 ev2 => mk_run o fs2 (ev1 ++ ev2)
        end
    | r => r
    end.

(** [with ctx as x: body]: the context is left, whatever way [body] ends. *)
Definition with_session {A} (body : M A) : M A :=
  fun fs =>
    match body fs with
    | mk_run o fs1 ev1 => mk_run o fs1 (ev1 ++ [EvClose])
    end.

(** ** Primitive operations *)

Definition print (line : string) : M unit := emit (EvPrint line).

(** [sys.exit(code)] *)
Definition sys_exit {A} (code : Z) : M A := fun fs => mk_run (Exit code) fs [].

(** [os.path.exists(path)] *)
Definition os_path_exists (path : string) : M bool :=
  fun fs => mk_run (Ret (bool_decide (path ∈ fs))) fs [].

(** [os.makedirs(path)] *)
Definition os_makedirs (W : World) (path : string) : M unit :=
  fun fs =>
    match os_makedirs_fault W fs path with
    | Some e => mk_run (Raise e) fs [EvMakedirs path]
    | None =>
        mk_run (Ret tt) ({[path]} ∪ os_makedirs_parents W path ∪ fs)
               [EvMakedirs path]
    end.

(** [yt_dlp.YoutubeDL(opts)] entered as a context manager *)
Definition YoutubeDL (W : World) (opts : ydl_options) : M unit :=
  fun fs =>
    match ydl_open W opts with
    | Some e => mk_run (Raise e) fs [EvSession opts]
    | None => mk_run (Ret tt) fs [EvSession opts]
    end.

(** [ydl.extract_info(url, download=False)] *)
Definition extract_info (W : World) (opts : ydl_options) (url : string)
    : M (option info_dict) :=
  fun fs =>
    match ydl_extract_info W opts url with
    | Ok i => mk_run (Ret i) fs [EvExtractInfo url false]
    | Err e => mk_run (Raise e) fs [EvExtractInfo url false]
    end.

(** [ydl.download(urls)] *)
Definition download (W : World) (opts : ydl_options) (urls : list string)
    : M Z :=
  fun fs =>
    let '(files, r) := ydl_download W opts urls in
    match r with
    | Ok code => mk_run (Ret code) (files ∪ fs) [EvDownload urls]
    | Err e => mk_run (Raise e) (files ∪ fs) [EvDownload urls]
    end.

(** [input(prompt)] *)
Definition input (W : World) (prompt : string) : M string :=
  fun fs =>
    match stdin_input W prompt with
    | Ok s => mk_run (Ret s) fs [EvInput prompt]
    | Err e => mk_run (Raise e) fs [EvInput prompt]
    end.

(** ** The program *)

(** [check_ffmpeg()] *)
Definition check_ffmpeg (W : World) : M bool :=
  if negb (truthy (shutil_which W "ffmpeg"))
     || negb (truthy (shutil_which W "ffprobe"))
  then
    print "❌ Error: FFmpeg is not installed or not in PATH!" ;;;
    print (nl +:+ "Please install FFmpeg:") ;;;
    print "  • Windows: Download from https://ffmpeg.org/download.html" ;;;
    print "  • Mac: brew install ffmpeg" ;;;
    print "  • Linux: sudo apt install ffmpeg (Ubuntu/Debian)" ;;;
    print (nl +:+ "FFmpeg is required to convert audio to MP3 format.") ;;;
    ret false
  else ret true.

(** The dictionary [ydl_opts] built by [download_audio]. *)
Definition ydl_opts (output_dir : string) : ydl_options :=
  {| opt_format := "bestaudio/best";
     opt_outtmpl := path_join output_dir "%(title)s.%(ext)s";
     opt_postprocessors :=
       [ {| pp_key := "FFmpegExtractAudio";
            pp_preferredcodec := "mp3";
            pp_preferredquality := "320" |} ];
     opt_writethumbnail := false;
     opt_writeinfojson := false;
     opt_embed_subs := false;
     opt_keepvideo := false;
     opt_ignoreerrors := true;
     opt_abort_on_unavailable_fragment := false;
     opt_extractor_args_youtube :=
       {| player_client := ["android"; "web"];
          player_skip := ["webpage"; "configs"] |} |}.

(** [e is not None] *)
Definition is_not_None {A} (e : option A) : bool :=
  match e with
  | Some _ => true
  | None => false
  end.

(** [len([e for e in entries if e is not None])] *)
Definition available_of (entries : list (option entry)) : Z :=
  Z.of_nat (length (List.filter is_not_None entries)).

(** [len(entries)] *)
Definition total_of (entries : list (option entry)) : Z :=
  Z.of_nat (length entries).

(** The lines whose wording the properties below refer to. *)
Definition prompt_text : string :=
  "Do you want to download the available videos? (y/n): ".
Definition warning_prefix : string := "⚠️  Note: ".
Definition warning_line (n : Z) : string :=
  warning_prefix +:+ str_int n +:+ " videos are unavailable and will be skipped".
Definition cancel_line : string := "Download cancelled.".
Definition download_error_prefix : string := "❌ Download error: ".
Definition unexpected_error_prefix : string := "❌ Unexpected error: ".

(** A block of statements either executes [return v] ([Some v]) or runs to
    its end ([None]). *)
Definition returned (A : Type) : Type := option A.

(** [download_audio(url, output_dir, skip_confirmation)] *)
Definition download_audio (W : World) (url output_dir : string)
    (skip_confirmation : bool) : M bool :=
  ffmpeg <- check_ffmpeg W ;;
  if negb ffmpeg then ret false else
  present <- os_path_exists output_dir ;;
  (if negb present then os_makedirs W output_dir else ret tt) ;;;
  let opts := ydl_opts output_dir in
  r <- try_except
         (YoutubeDL W opts ;;;
          with_session
            (print "Analyzing URL..." ;;;
             info <- extract_info W opts url ;;
             early <-
               match info with
               | None =>
                   (* 'entries' in None *)
                   raise (OtherError "TypeError"
                            "argument of type 'NoneType' is not iterable")
               | Some info =>
                   match info_entries info with
                   | Some entries =>
                       let available_count := available_of entries in
                       let total_count := total_of entries in
                       print ("Found playlist: " +:+ get_title info) ;;;
                       print ("Total videos: " +:+ str_int total_count) ;;;
                       print ("Available videos: " +:+ str_int available_count) ;;;
                       (if negb (total_count =? available_count)
                        then print (warning_line (total_count - available_count))
                        else ret tt) ;;;
                       declined <-
                         (if negb skip_confirmation then
                            response <- input W prompt_text ;;
                            if negb (in_list (lower response) ["y"; "yes"])
                            then print cancel_line ;;; ret (Some false)
                            else ret None
                          else ret None) ;;
                       match declined with
                       | Some b => ret (Some b)
                       | None => print "Downloading playlist..." ;;; ret None
                       end
                   | None =>
                       print ("Found video: " +:+ get_title info) ;;;
                       print "Downloading single video..." ;;;
                       ret None
                   end
               end ;;
             match early : returned bool with
             | Some b => ret (Some b)
             | None =>
                 download W opts [url] ;;;
                 print (nl +:+ "✅ Download completed! Files saved to: "
                           +:+ os_path_abspath W output_dir) ;;;
                 ret None
             end))
         (fun e => print (download_error_prefix +:+ str_exn e) ;;;
                   ret (Some false))
         (fun e => print (unexpected_error_prefix +:+ str_exn e) ;;;
                   ret (Some false)) ;;
  match r : returned bool with
  | Some b => ret b
  | None => ret true
  end.

(** The namespace produced by [parser.parse_args()]. *)
Record Namespace : Type := mk_args {
  args_url : string;
  args_output : string;
  args_no_confirm : bool
}.

(** [main()], from the parsed arguments on. *)
Definition main (W : World) (args : Namespace) : M unit :=
  if negb (str_in "youtube.com" (args_url args))
     && negb (str_in "youtu.be" (args_url args))
  then
    print "Error: Please provide a valid YouTube URL" ;;;
    sys_exit 1
  else
    print ("Processing URL: " +:+ args_url args) ;;;
    print ("Output directory: " +:+ args_output args) ;;;
    print (str_repeat "-" 50) ;;;
    success <- download_audio W (args_url args) (args_output args)
                 (args_no_confirm args) ;;
    if success
    then print (nl +:+ "✅ All downloads completed successfully!")
    else print (nl +:+ "❌ Download failed!") ;;; sys_exit 1.

(** Exit status of the interpreter for the way [main()] ended: an uncaught
    exception prints a traceback and gives status 1. *)
Definition exit_status {A} (o : outcome A) : Z :=
  match o with
  | Ret _ => 0
  | Raise _ => 1
  | Exit c => c
  end.

(** ** Vocabulary of the properties *)

(** The lines written to standard output, in order. *)
Fixpoint printed (evs : list event) : list string :=
  match evs with
  | [] => []
  | EvPrint line :: evs' => line :: printed evs'
  | _ :: evs' => printed evs'
  end.

(** [s.startswith(p)] *)
Fixpoint starts_with (p s : string) : bool :=
  match p with
  | EmptyString => true
  | String a p' =>
      match s with
      | EmptyString => false
      | String b s' => Ascii.eqb a b && starts_with p' s'
      end
  end.

(** [sub] occurs in [s] as a substring. *)
Definition occurs_in (sub s : string) : Prop :=
  exists a b, s = a +:+ sub +:+ b.

(** The answer is taken as a yes. *)
Definition affirmative (response : string) : bool :=
  in_list (lower response) ["y"; "yes"].

(** A line of the unavailability warning. *)
Definition is_warning (line : string) : bool :=
  starts_with warning_prefix line.


(** The line a handler prints for the exception [e]. *)
Definition error_line (e : exn) : string :=
  if is_DownloadError e
  then download_error_prefix +:+ str_exn e
  else unexpected_error_prefix +:+ str_exn e.

(** The probe of this call was performed and answered [info]. *)
Definition probed (W : World) (url output_dir : string) (skip : bool)
    (fs : gset string) (info : info_dict) : Prop :=
  In (EvExtractInfo url false) (events (download_audio W url output_dir skip fs))
  /\ ydl_extract_info W (ydl_opts output_dir) url = Ok (Some info).




(** ** Sample worlds

    A family of concrete environments: both tools are installed or not,
    [os.makedirs] works or raises, and the probe, the download and the
    terminal answer as given. *)

Definition sample_world (tools : bool) (mkdir : option exn)
    (probe : result (option info_dict)) (fetch : result Z)
    (answer : result string) : World :=
  {| shutil_which := fun name =>
       if tools then Some ("/usr/bin/" +:+ name) else None;
     os_makedirs_fault := fun _ _ => mkdir;
     os_makedirs_parents := fun _ => ∅;
     os_path_abspath := fun p => "/home/user/" +:+ p;
     ydl_open := fun _ => None;
     ydl_extract_info := fun _ _ => probe;
     ydl_download := fun opts _ =>
       (match fetch with
        | Ok _ => {[ "downloads/Song.mp3" ]}
        | Err _ => ∅
        end, fetch);
     stdin_input := fun _ => answer |}.

(** Both tools installed and a writable disk. *)
Definition ready_world (probe : result (option info_dict)) (fetch : result Z)
    (answer : result string) : World :=
  sample_world true None probe fetch answer.

Definition song : info_dict :=
  {| info_title := Some "Song"; info_entries := None |}.

Definition my_list : info_dict :=
  {| info_title := Some "MyList";
     info_entries :=
       Some [ Some (mk_entry "a1" (Some "One")); None;
              Some (mk_entry "c3" (Some "Three")) ] |}.

Definition five_entries : list (option entry) :=
  [ Some (mk_entry "a1" (Some "One")); None;
    Some (mk_entry "c3" (Some "Three")); None;
    Some (mk_entry "e5" (Some "Five")) ].

Definition long_list : info_dict :=
  {| info_title := Some "Long"; info_entries := Some five_entries |}.

Definition empty_list : info_dict :=
  {| info_title := None; info_entries := Some [] |}.


Definition video_url : string := "https://youtu.be/abc123".
Definition playlist_url : string :=
  "https://www.youtube.com/playlist?list=XYZ".

(** ** Vocabulary of the further properties *)

Definition is_print (ev : event) : bool :=
  match ev with
  | EvPrint _ => true
  | _ => false
  end.

(** The calls made to the collaborators, in order: the events that are
    not printed lines. *)
Definition calls (evs : list event) : list event :=
  List.filter (fun ev => negb (is_print ev)) evs.

(** The calls of the script, in the order of its text. *)
Definition script_calls (url output_dir : string) : list event :=
  [ EvMakedirs output_dir;
    EvSession (ydl_opts output_dir);
    EvExtractInfo url false;
    EvInput prompt_text;
    EvDownload [url];
    EvClose ].

(** [e is None] *)
Definition is_None {A} (e : option A) : bool := negb (is_not_None e).

(** The number of entries that are [None]. *)
Definition unavailable_of (entries : list (option entry)) : Z :=
  Z.of_nat (length (List.filter is_None entries)).

(** The URL passes the test of [main]. *)
Definition accepted_url (url : string) : Prop :=
  occurs_in "youtube.com" url \/ occurs_in "youtu.be" url.

(** The three lines [main] prints before it does any work. *)
Definition header_of (args : Namespace) : list event :=
  [ EvPrint ("Processing URL: " +:+ args_url args);
    EvPrint ("Output directory: " +:+ args_output args);
    EvPrint "--------------------------------------------------" ].

(** The line [main] prints after [download_audio] has returned. *)
Definition banner_of (o : outcome bool) : list event :=
  match o with
  | Ret true => [EvPrint (nl +:+ "✅ All downloads completed successfully!")]
  | Ret false => [EvPrint (nl +:+ "❌ Download failed!")]
  | _ => []
  end.

(** The user agreed to the download, or was not asked. *)
Definition go_ahead (W : World) (skip : bool) (info : info_dict) : Prop :=
  info_entries info = None
  \/ skip = true
  \/ exists response,
       stdin_input W prompt_text = Ok response /\ affirmative response = true.

(** ** Strings: what the tests of the script mean *)

Section Strings.

Lemma append_nil (s : string) : "" +:+ s = s.
Proof. reflexivity. Qed.

Lemma append_cons (c : ascii) (s t : string) :
  String c s +:+ t = String c (s +:+ t).
Proof. reflexivity. Qed.

Lemma prefix_occurs (p s : string) :
  String.prefix p s = true <-> exists b, s = p +:+ b.
Proof.
  revert s. induction p as [|c p IH]; intros s.
  - split; [intros _; exists s; reflexivity | intros _; destruct s; reflexivity].
  - destruct s as [|d s]; simpl.
    + split; [discriminate | intros [b Hb]; discriminate].
    + destruct (ascii_dec c d) as [->|Hne].
      * rewrite IH. split; intros [b Hb]; exists b.
        -- rewrite append_cons. congruence.
        -- rewrite append_cons in Hb. congruence.
      * split; [discriminate | intros [b Hb]].
        rewrite append_cons in Hb. congruence.
Qed.

Lemma str_in_nil (sub : string) :
  str_in sub "" = String.prefix sub "" || false.
Proof. reflexivity. Qed.

Lemma str_in_cons (sub : string) (c : ascii) (s : string) :
  str_in sub (String c s) = String.prefix sub (String c s) || str_in sub s.
Proof. reflexivity. Qed.

(** [starts_with] decides the prefix relation. *)
Lemma starts_with_occurs (p s : string) :
  starts_with p s = true <-> exists b, s = p +:+ b.
Proof.
  revert s. induction p as [|c p IH]; intros s; simpl.
  - split; [intros _; exists s; reflexivity | reflexivity].
  - destruct s as [|d s].
    + split; [discriminate | intros [b Hb]; discriminate].
    + rewrite andb_true_iff, Ascii.eqb_eq, IH. split.
      * intros [-> [b ->]]. exists b. reflexivity.
      * intros [b Hb]. rewrite append_cons in Hb.
        injection Hb as -> ->. eauto.
Qed.

(** [str_in] decides the substring relation. *)
Lemma str_in_occurs (sub s : string) :
  str_in sub s = true <-> occurs_in sub s.
Proof.
  unfold occurs_in. induction s as [|c s IH];
    [rewrite str_in_nil | rewrite str_in_cons].
  - rewrite orb_false_r, prefix_occurs. split.
    + intros [b Hb]. exists "", b. exact Hb.
    + intros [a [b Hab]]. destruct a as [|d a].
      * rewrite append_nil in Hab. eauto.
      * rewrite append_cons in Hab. discriminate.
  - rewrite orb_true_iff, prefix_occurs, IH. split.
    + intros [[b Hb] | [a [b Hab]]].
      * exists "", b. exact Hb.
      * exists (String c a), b. rewrite append_cons. congruence.
    + intros [a [b Hab]]. destruct a as [|d a].
      * left. rewrite append_nil in Hab. eauto.
      * right. rewrite append_cons in Hab. exists a, b. congruence.
Qed.

Lemma str_in_absent (sub s : string) :
  ~ occurs_in sub s -> str_in sub s = false.
Proof.
  intros H. destruct (str_in sub s) eqn:E; [|reflexivity].
  exfalso. apply H, str_in_occurs, E.
Qed.

Lemma lower_ascii_y (c : ascii) :
  lower_ascii c = "y"%char <-> c = "y"%char \/ c = "Y"%char.
Proof.
  destruct c as [[] [] [] [] [] [] [] []]; vm_compute;
    split; intros H; try discriminate H; try tauto;
    destruct H as [H|H]; discriminate H.
Qed.

Lemma lower_ascii_e (c : ascii) :
  lower_ascii c = "e"%char <-> c = "e"%char \/ c = "E"%char.
Proof.
  destruct c as [[] [] [] [] [] [] [] []]; vm_compute;
    split; intros H; try discriminate H; try tauto;
    destruct H as [H|H]; discriminate H.
Qed.

Lemma lower_ascii_s (c : ascii) :
  lower_ascii c = "s"%char <-> c = "s"%char \/ c = "S"%char.
Proof.
  destruct c as [[] [] [] [] [] [] [] []]; vm_compute;
    split; intros H; try discriminate H; try tauto;
    destruct H as [H|H]; discriminate H.
Qed.

Lemma affirmative_lower (r : string) :
  affirmative r = true <-> lower r = "y" \/ lower r = "yes".
Proof.
  unfold affirmative, in_list. simpl.
  rewrite orb_false_r, orb_true_iff, !String.eqb_eq. reflexivity.
Qed.

(** X17. The answers taken as a yes are exactly the ten spellings of [y]
    and [yes]; every other answer, the empty one and one with blanks around
    it included, is a decline. *)
Lemma affirmative_spellings (r : string) :
  affirmative r = true <->
  In r ["y"; "Y"; "yes"; "yeS"; "yEs"; "yES"; "Yes"; "YeS"; "YEs"; "YES"].
Proof.
  rewrite affirmative_lower. split.
  - intros [H|H].
    + destruct r as [|c [|c' r]]; simpl in H; try discriminate H.
      injection H as H. apply lower_ascii_y in H.
      destruct H as [->| ->]; simpl; tauto.
    + destruct r as [|c1 [|c2 [|c3 [|c4 r]]]]; simpl in H; try discriminate H.
      injection H as H1 H2 H3.
      apply lower_ascii_y in H1. apply lower_ascii_e in H2.
      apply lower_ascii_s in H3.
      destruct H1 as [->| ->], H2 as [->| ->], H3 as [->| ->]; simpl; tauto.
  - simpl. intros H.
    repeat (destruct H as [<-|H]; [vm_compute; tauto|]). destruct H.
Qed.

Lemma available_le_total (entries : list (option entry)) :
  0 <= available_of entries <= total_of entries.
Proof.
  unfold available_of, total_of. split; [lia|].
  apply inj_le. induction entries as [|e es IH]; simpl; [lia|].
  destruct (is_not_None e); simpl; lia.
Qed.

End Strings.

(** ** Running the program symbolically

    [exec] unfolds the monad and the primitives, and splits on every
    answer of a collaborator that the script branches on; what remains of a
    run is its outcome, its final file system and its list of events. *)

Ltac run_simpl :=
  cbv beta iota zeta delta
    [main download_audio check_ffmpeg
     bind ret raise emit print try_except with_session sys_exit
     os_path_exists os_makedirs YoutubeDL extract_info download input
     result_of fs_after events app negb andb orb is_DownloadError returned].

Ltac break_scrutinee :=
  match goal with
  | H : ?x = _ |- context [match ?x with _ => _ end] => rewrite H
  | |- context [match ?x with _ => _ end] =>
      lazymatch x with
      | context [match _ with _ => _ end] => fail
      | _ => destruct x eqn:?
      end
  end.

Ltac exec := run_simpl; repeat (break_scrutinee; run_simpl).

(** Membership in an explicit list of events. *)
Ltac in_events :=
  cbn [In];
  repeat match goal with
         | |- _ \/ _ => first [left; reflexivity | right]
         end.

(** No such event in an explicit list. *)
Ltac not_in_events :=
  cbn [In]; intuition discriminate.

(** ** The properties *)

Section Validation.

(** C4. A URL that contains neither "youtube.com" nor "youtu.be" makes
    [main] print one error line and leave through [sys.exit(1)]: the exit
    status is 1, [download_audio] is not entered, no collaborator is
    called, and the file system is unchanged. *)
Theorem main_rejects_other_urls (W : World) (args : Namespace)
    (fs : gset string) :
  ~ occurs_in "youtube.com" (args_url args) ->
  ~ occurs_in "youtu.be" (args_url args) ->
  main W args fs
    = mk_run (Exit 1) fs [EvPrint "Error: Please provide a valid YouTube URL"]
  /\ exit_status (result_of (main W args fs)) = 1.
Proof.
  intros H1 H2. apply str_in_absent in H1, H2.
  unfold main. rewrite H1, H2. split; reflexivity.
Qed.

Lemma main_rejects_other_urls_witness :
  let W := sample_world true None (Ok (Some song)) (Ok 0) (Ok "y") in
  let args := mk_args "https://vimeo.com/12345" "downloads" false in
  main W args ∅
    = mk_run (Exit 1) ∅ [EvPrint "Error: Please provide a valid YouTube URL"]
  /\ exit_status (result_of (main W args ∅)) = 1.
Proof.
  intros W args. apply (main_rejects_other_urls W args ∅).
  - intros H. apply str_in_occurs in H. vm_compute in H. discriminate H.
  - intros H. apply str_in_occurs in H. vm_compute in H. discriminate H.
Defined.

(** C5. When the tool check fails, [download_audio] returns [False] at
    once: the file system is as before (no directory is created) and the
    only events are the lines printed by the check (no [os.makedirs], no
    session, no probe, no download). *)
Theorem no_ffmpeg_returns_at_once (W : World) (url output_dir : string)
    (skip : bool) (fs : gset string) :
  result_of (check_ffmpeg W fs) = Ret false ->
  let r := download_audio W url output_dir skip fs in
  result_of r = Ret false
  /\ fs_after r = fs
  /\ events r = events (check_ffmpeg W fs)
  /\ (forall ev, In ev (events r) -> exists line, ev = EvPrint line).
Proof.
  intros H r. subst r. revert H. exec; intros H; try discriminate H.
  all: repeat split; cbn [In]; intros ev Hev;
    repeat (destruct Hev as [<-|Hev]; [eexists; reflexivity|]);
    destruct Hev.
Qed.

Lemma no_ffmpeg_returns_at_once_witness :
  let W := sample_world false None (Ok (Some song)) (Ok 0) (Ok "y") in
  let r := download_audio W video_url "downloads" false ∅ in
  result_of r = Ret false
  /\ fs_after r = ∅
  /\ events r = events (check_ffmpeg W ∅)
  /\ (forall ev, In ev (events r) -> exists line, ev = EvPrint line).
Proof.
  intros W.
  apply (no_ffmpeg_returns_at_once W video_url "downloads" false ∅).
  reflexivity.
Defined.

End Validation.

Section Classification.

(** A branch of a run in which the probe was not reached contradicts
    [probed]. *)
Ltac unreached H := exfalso; revert H; clear; not_in_events.

(** C1. For a probe result with an [entries] key, without
    [skip_confirmation], an answer that is not a spelling of "y" or "yes"
    (the empty answer included) makes [download_audio] print the
    cancellation notice and return [False], and [ydl.download] is never
    called. *)
Theorem decline_cancels_download (W : World) (url output_dir : string)
    (fs : gset string) (info : info_dict) (entries : list (option entry))
    (response : string) :
  probed W url output_dir false fs info ->
  info_entries info = Some entries ->
  stdin_input W prompt_text = Ok response ->
  affirmative response = false ->
  let r := download_audio W url output_dir false fs in
  result_of r = Ret false
  /\ In (EvPrint cancel_line) (events r)
  /\ (forall urls, ~ In (EvDownload urls) (events r)).
Proof.
  intros [Hev Hprobe] Hentries Hanswer Hno r. subst r.
  unfold affirmative in Hno. revert Hev.
  exec; intros Hev; try (unreached Hev).
  all: split; [reflexivity | split; [solve [in_events] | intros urls; not_in_events]].
Qed.

(** C2. For a probe result with an [entries] key the report gives the
    number of entries and the number of entries that are not [None]; a
    warning line is printed exactly when the two differ, and it names the
    difference.  With 5 entries of which 3 are available the warning says
    2; with equal counts no warning line is printed. *)
Theorem collection_report_counts (W : World) (url output_dir : string)
    (skip : bool) (fs : gset string) (info : info_dict)
    (entries : list (option entry)) :
  probed W url output_dir skip fs info ->
  info_entries info = Some entries ->
  let r := download_audio W url output_dir skip fs in
  let total := Z.of_nat (length entries) in
  let available := Z.of_nat (length (List.filter is_not_None entries)) in
  In (EvPrint ("Total videos: " +:+ str_int total)) (events r)
  /\ In (EvPrint ("Available videos: " +:+ str_int available)) (events r)
  /\ List.filter is_warning (printed (events r))
     = (if total =? available then []
        else [warning_line (total - available)])
  /\ (total = 5 -> available = 3 ->
      In (EvPrint "⚠️  Note: 2 videos are unavailable and will be skipped")
         (events r)).
Proof.
  intros [Hev Hprobe] Hentries r total available. subst r.
  change total with (total_of entries).
  change available with (available_of entries).
  clear total available. revert Hev.
  exec; intros Hev; try (unreached Hev).
  all: split; [solve [in_events] | split; [solve [in_events] | split]].
  all: try (vm_compute; reflexivity).
  all: intros H5 H3;
    match goal with E : (total_of _ =? available_of _) = _ |- _ =>
      rewrite H5, H3 in E; try discriminate E end;
    rewrite H5, H3; solve [in_events].
Qed.

(** C8. For a probe result without an [entries] key no prompt is issued,
    whatever [skip_confirmation] is, and the download follows the probe
    directly: between the two there are only the two lines of the report. *)
Theorem single_item_never_prompts (W : World) (url output_dir : string)
    (skip : bool) (fs : gset string) (info : info_dict) :
  probed W url output_dir skip fs info ->
  info_entries info = None ->
  let r := download_audio W url output_dir skip fs in
  (forall prompt, ~ In (EvInput prompt) (events r))
  /\ (exists before after,
        events r
        = (before
           ++ [ EvExtractInfo url false;
                EvPrint ("Found video: " +:+ get_title info);
                EvPrint "Downloading single video...";
                EvDownload [url] ]
           ++ after)%list).
Proof.
  intros [Hev Hprobe] Hentries r. subst r. revert Hev.
  exec; intros Hev; try (unreached Hev).
  all: split; [intros prompt; not_in_events |].
  all: first
    [ exists [EvSession (ydl_opts output_dir); EvPrint "Analyzing URL..."];
      eexists; reflexivity
    | exists [EvMakedirs output_dir; EvSession (ydl_opts output_dir);
              EvPrint "Analyzing URL..."];
      eexists; reflexivity ].
Qed.

(** C10. A probe result whose [entries] list is empty is a playlist for
    the script: it reports 0 videos and 0 available videos, prints no
    warning line, and still asks for confirmation unless
    [skip_confirmation] is set. *)
Theorem empty_collection_still_prompts (W : World) (url output_dir : string)
    (skip : bool) (fs : gset string) (info : info_dict) :
  probed W url output_dir skip fs info ->
  info_entries info = Some [] ->
  let r := download_audio W url output_dir skip fs in
  In (EvPrint ("Found playlist: " +:+ get_title info)) (events r)
  /\ In (EvPrint "Total videos: 0") (events r)
  /\ In (EvPrint "Available videos: 0") (events r)
  /\ List.filter is_warning (printed (events r)) = []
  /\ (skip = false -> In (EvInput prompt_text) (events r)).
Proof.
  intros [Hev Hprobe] Hentries r. subst r. revert Hev.
  exec; intros Hev; try (unreached Hev).
  all: try match goal with
           | E : (total_of [] =? available_of []) = false |- _ =>
               vm_compute in E; discriminate E
           end.
  all: repeat match goal with |- _ /\ _ => split end.
  all: try solve [in_events].
  all: try (vm_compute; reflexivity).
  all: intros Hskip; first [discriminate Hskip | solve [in_events]].
Qed.

End Classification.

Section Faults.





End Faults.

Section Directory.

(** A call that finds the output directory in place does not call
    [os.makedirs], returns a boolean, and removes nothing. *)
Lemma existing_directory_is_kept (W : World) (url output_dir : string)
    (skip : bool) (fs : gset string) :
  output_dir ∈ fs ->
  let r := download_audio W url output_dir skip fs in
  (forall path, ~ In (EvMakedirs path) (events r))
  /\ (exists b, result_of r = Ret b)
  /\ output_dir ∈ fs_after r
  /\ fs ⊆ fs_after r.
Proof.
  intros Hin r. subst r. exec.
  all: try match goal with
           | Hb : bool_decide _ = false |- _ =>
               apply bool_decide_eq_false in Hb; contradiction
           end.
  all: split; [intros path; not_in_events |].
  all: split; [eexists; reflexivity |].
  all: clear - Hin; set_solver.
Qed.

(** C7. Directory creation is idempotent: a second call of
    [download_audio] with the same output directory, the directory being in
    place after the first call, does not call [os.makedirs] again, does not
    fail at that step (it returns a boolean), and leaves the directory and
    everything else that existed in place. *)
Theorem makedirs_is_idempotent (W1 W2 : World) (url1 url2 output_dir : string)
    (skip1 skip2 : bool) (fs : gset string) :
  let r1 := download_audio W1 url1 output_dir skip1 fs in
  let r2 := download_audio W2 url2 output_dir skip2 (fs_after r1) in
  output_dir ∈ fs_after r1 ->
  (forall path, ~ In (EvMakedirs path) (events r2))
  /\ (exists b, result_of r2 = Ret b)
  /\ output_dir ∈ fs_after r2
  /\ fs_after r1 ⊆ fs_after r2.
Proof.
  intros r1 r2 Hin. subst r2.
  apply (existing_directory_is_kept W2 url2 output_dir skip2 (fs_after r1) Hin).
Qed.

(** C9. Once the tool check has passed, every call that returns [False]
    (after an exception of the probe or of the download, or after the user
    declined) leaves the output directory in place: it exists when the call
    returns, and nothing that existed before was removed.  Such a call
    printed the cancellation notice or the line of a handler. *)
Theorem failure_keeps_directory (W : World) (url output_dir : string)
    (skip : bool) (fs : gset string) :
  result_of (check_ffmpeg W fs) = Ret true ->
  let r := download_audio W url output_dir skip fs in
  result_of r = Ret false ->
  output_dir ∈ fs_after r
  /\ fs ⊆ fs_after r
  /\ (In (EvPrint cancel_line) (events r)
      \/ exists e, In (EvPrint (error_line e)) (events r)).
Proof.
  intros Hcheck r. subst r. revert Hcheck.
  exec; intros Hcheck Hres; try discriminate Hcheck; try discriminate Hres.
  all: repeat match goal with
              | Hb : bool_decide _ = true |- _ =>
                  apply bool_decide_eq_true in Hb
              end.
  all: split; [set_solver | split; [set_solver |]].
  all: first [ left; solve [in_events]
             | right; eexists (DownloadError _); solve [in_events]
             | right; eexists (OtherError _ _); solve [in_events] ].
Qed.

End Directory.

(** ** The properties at concrete runs *)

Section Runs.

(** A concrete run reached the probe. *)
Ltac reached :=
  split; [vm_compute; solve [in_events] | reflexivity].

(** A path is in the file system a concrete run leaves behind. *)
Ltac on_disk := refine (bool_decide_unpack _ _); vm_compute; exact I.

(** Scenario A of the specification: one video, no prompt, one download,
    and the success line names the absolute path of the directory. *)
Example scenario_single_video :
  let W := ready_world (Ok (Some song)) (Ok 0) (Ok "") in
  let r := download_audio W video_url "downloads" false ∅ in
  result_of r = Ret true
  /\ events r
     = [ EvMakedirs "downloads";
         EvSession (ydl_opts "downloads");
         EvPrint "Analyzing URL...";
         EvExtractInfo video_url false;
         EvPrint "Found video: Song";
         EvPrint "Downloading single video...";
         EvDownload [video_url];
         EvPrint (nl +:+ "✅ Download completed! Files saved to: /home/user/downloads");
         EvClose ]
  /\ exit_status (result_of (main W (mk_args video_url "downloads" false) ∅)) = 0.
Proof. vm_compute. repeat split. Qed.

(** Scenario B: a playlist of three entries, one of them unavailable, and
    the user answers "y". *)
Example scenario_playlist_accepted :
  let W := ready_world (Ok (Some my_list)) (Ok 0) (Ok "y") in
  let r := download_audio W playlist_url "downloads" false ∅ in
  result_of r = Ret true
  /\ printed (events r)
     = [ "Analyzing URL...";
         "Found playlist: MyList";
         "Total videos: 3";
         "Available videos: 2";
         "⚠️  Note: 1 videos are unavailable and will be skipped";
         "Downloading playlist...";
         nl +:+ "✅ Download completed! Files saved to: /home/user/downloads" ]
  /\ In (EvDownload [playlist_url]) (events r).
Proof. vm_compute. repeat split. right. tauto. Qed.

(** Scenario C: the same playlist, and the user answers "n". *)
Example scenario_playlist_declined :
  let W := ready_world (Ok (Some my_list)) (Ok 0) (Ok "n") in
  let r := main W (mk_args playlist_url "downloads" false) ∅ in
  exit_status (result_of r) = 1
  /\ printed (events r)
     = [ "Processing URL: https://www.youtube.com/playlist?list=XYZ";
         "Output directory: downloads";
         "--------------------------------------------------";
         "Analyzing URL...";
         "Found playlist: MyList";
         "Total videos: 3";
         "Available videos: 2";
         "⚠️  Note: 1 videos are unavailable and will be skipped";
         "Download cancelled.";
         nl +:+ "❌ Download failed!" ]
  /\ (forall urls, ~ In (EvDownload urls) (events r)).
Proof.
  vm_compute. split; [reflexivity | split; [reflexivity |]].
  intros urls H. repeat (destruct H as [H|H]; [discriminate H|]). exact H.
Qed.

(** A probe that answers [None] ends in the generic handler. *)
Example scenario_probe_none :
  let W := ready_world (Ok None) (Ok 0) (Ok "y") in
  let r := download_audio W video_url "downloads" false ∅ in
  result_of r = Ret false
  /\ printed (events r)
     = [ "Analyzing URL...";
         "❌ Unexpected error: argument of type 'NoneType' is not iterable" ].
Proof. vm_compute. split; reflexivity. Qed.

Lemma decline_cancels_download_witness :
  let W := ready_world (Ok (Some my_list)) (Ok 0) (Ok "") in
  let r := download_audio W playlist_url "downloads" false ∅ in
  result_of r = Ret false
  /\ In (EvPrint cancel_line) (events r)
  /\ (forall urls, ~ In (EvDownload urls) (events r)).
Proof.
  intros W.
  apply (decline_cancels_download W playlist_url "downloads" ∅ my_list
           [ Some (mk_entry "a1" (Some "One")); None;
             Some (mk_entry "c3" (Some "Three")) ] "").
  - reached.
  - reflexivity.
  - reflexivity.
  - reflexivity.
Defined.

Lemma collection_report_counts_witness :
  let W := ready_world (Ok (Some long_list)) (Ok 0) (Ok "yes") in
  let r := download_audio W playlist_url "downloads" false ∅ in
  In (EvPrint "Total videos: 5") (events r)
  /\ In (EvPrint "Available videos: 3") (events r)
  /\ List.filter is_warning (printed (events r))
     = ["⚠️  Note: 2 videos are unavailable and will be skipped"]
  /\ In (EvPrint "⚠️  Note: 2 videos are unavailable and will be skipped")
        (events r).
Proof.
  intros W r.
  assert (Hprobed : probed W playlist_url "downloads" false ∅ long_list)
    by reached.
  destruct (collection_report_counts W playlist_url "downloads" false ∅
              long_list five_entries Hprobed eq_refl)
    as [Htotal [Havailable [Hwarning Hfive]]].
  split; [exact Htotal | split; [exact Havailable | split]].
  - exact Hwarning.
  - exact (Hfive eq_refl eq_refl).
Defined.

Lemma single_item_never_prompts_witness :
  let W := ready_world (Ok (Some song)) (Ok 0) (Ok "n") in
  let r := download_audio W video_url "downloads" false ∅ in
  (forall prompt, ~ In (EvInput prompt) (events r))
  /\ (exists before after,
        events r
        = (before
           ++ [ EvExtractInfo video_url false;
                EvPrint ("Found video: " +:+ get_title song);
                EvPrint "Downloading single video...";
                EvDownload [video_url] ]
           ++ after)%list).
Proof.
  intros W.
  apply (single_item_never_prompts W video_url "downloads" false ∅ song).
  - reached.
  - reflexivity.
Defined.

Lemma empty_collection_still_prompts_witness :
  let W := ready_world (Ok (Some empty_list)) (Ok 0) (Ok "y") in
  let r := download_audio W playlist_url "downloads" false ∅ in
  In (EvPrint ("Found playlist: " +:+ get_title empty_list)) (events r)
  /\ In (EvPrint "Total videos: 0") (events r)
  /\ In (EvPrint "Available videos: 0") (events r)
  /\ List.filter is_warning (printed (events r)) = []
  /\ (false = false -> In (EvInput prompt_text) (events r)).
Proof.
  intros W.
  apply (empty_collection_still_prompts W playlist_url "downloads" false ∅
           empty_list).
  - reached.
  - reflexivity.
Defined.



Lemma makedirs_is_idempotent_witness :
  let W1 := ready_world (Ok (Some song)) (Ok 0) (Ok "y") in
  let W2 := ready_world (Ok (Some my_list)) (Ok 0) (Ok "n") in
  let r1 := download_audio W1 video_url "downloads" false ∅ in
  let r2 := download_audio W2 playlist_url "downloads" false (fs_after r1) in
  (forall path, ~ In (EvMakedirs path) (events r2))
  /\ (exists b, result_of r2 = Ret b)
  /\ "downloads" ∈ fs_after r2
  /\ fs_after r1 ⊆ fs_after r2.
Proof.
  intros W1 W2.
  apply (makedirs_is_idempotent W1 W2 video_url playlist_url "downloads"
           false false ∅).
  on_disk.
Defined.

Lemma failure_keeps_directory_witness :
  let W := ready_world (Ok (Some my_list)) (Ok 0) (Ok "no") in
  let r := download_audio W playlist_url "downloads" false ∅ in
  "downloads" ∈ fs_after r
  /\ ∅ ⊆ fs_after r
  /\ (In (EvPrint cancel_line) (events r)
      \/ exists e, In (EvPrint (error_line e)) (events r)).
Proof.
  intros W.
  apply (failure_keeps_directory W playlist_url "downloads" false ∅).
  - reflexivity.
  - vm_compute. reflexivity.
Defined.

End Runs.

(** ** Further properties of [check_ffmpeg] and [main] *)

Section EntryPoint.



Lemma accepted_url_test (url : string) :
  accepted_url url ->
  negb (str_in "youtube.com" url) && negb (str_in "youtu.be" url) = false.
Proof.
  intros [H|H]; apply str_in_occurs in H; rewrite H;
    [reflexivity | apply andb_false_r].
Qed.

(** [main] on an accepted URL, in terms of the run of [download_audio]. *)
Lemma main_accepted (W : World) (args : Namespace) (fs : gset string) :
  accepted_url (args_url args) ->
  let d := download_audio W (args_url args) (args_output args)
             (args_no_confirm args) fs in
  main W args fs
  = mk_run (match result_of d with
            | Ret true => Ret tt
            | Ret false => Exit 1
            | Raise e => Raise e
            | Exit c => Exit c
            end)
           (fs_after d)
           (header_of args ++ events d ++ banner_of (result_of d)).
Proof.
  intros Hurl d. subst d. unfold main.
  rewrite (accepted_url_test _ Hurl).
  cbv beta iota zeta delta [bind print emit sys_exit header_of].
  destruct (download_audio W (args_url args) (args_output args)
              (args_no_confirm args) fs) as [[[]|e|c] fs' evs];
    cbv beta iota zeta delta [result_of fs_after events banner_of];
    cbn [app]; rewrite ?app_nil_r; reflexivity.
Qed.

(** X2. On an accepted URL [main] wraps [download_audio]: it prints the
    three header lines, runs [download_audio] with the URL, the output
    directory and the [--no-confirm] flag, and prints one banner after it.
    It leaves the file system as [download_audio] left it; [True] gives a
    normal return, [False] gives [sys.exit(1)], and an exception that
    leaves [download_audio] leaves [main] too, with no banner. *)
Theorem main_wraps_download_audio (W : World) (args : Namespace)
    (fs : gset string) :
  accepted_url (args_url args) ->
  let d := download_audio W (args_url args) (args_output args)
             (args_no_confirm args) fs in
  let r := main W args fs in
  fs_after r = fs_after d
  /\ events r = (header_of args ++ events d ++ banner_of (result_of d))%list
  /\ (result_of d = Ret true -> result_of r = Ret tt)
  /\ (result_of d = Ret false -> result_of r = Exit 1)
  /\ (forall e, result_of d = Raise e ->
      result_of r = Raise e /\ banner_of (result_of d) = []).
Proof.
  intros Hurl d r. subst r. rewrite (main_accepted W args fs Hurl).
  fold d. cbn [result_of fs_after events].
  split; [reflexivity | split; [reflexivity | split; [| split]]].
  - intros H. rewrite H. reflexivity.
  - intros H. rewrite H. reflexivity.
  - intros e H. rewrite H. split; reflexivity.
Qed.


(** X4. [main] turns a URL away exactly when it contains neither
    "youtube.com" nor "youtu.be": with either substring anywhere in it, the
    run starts with the header and goes on to [download_audio]. *)
Theorem url_rejected_iff (W : World) (args : Namespace) (fs : gset string) :
  main W args fs
    = mk_run (Exit 1) fs [EvPrint "Error: Please provide a valid YouTube URL"]
  <-> ~ accepted_url (args_url args).
Proof.
  split.
  - intros Hrun Hurl. rewrite (main_accepted W args fs Hurl) in Hrun.
    injection Hrun as _ _ Hevs. unfold header_of in Hevs.
    cbn [app] in Hevs. discriminate Hevs.
  - intros Hno. unfold main.
    rewrite (str_in_absent "youtube.com"), (str_in_absent "youtu.be");
      [reflexivity | |]; intros H; apply Hno; [right | left]; exact H.
Qed.

(** X15. With an accepted URL and a missing tool the program prints the
    header, the installation help and the failure banner, and exits with
    status 1: it calls no collaborator and leaves the file system
    untouched. *)
Theorem main_without_ffmpeg (W : World) (args : Namespace) (fs : gset string) :
  accepted_url (args_url args) ->
  result_of (check_ffmpeg W fs) = Ret false ->
  let r := main W args fs in
  result_of r = Exit 1
  /\ fs_after r = fs
  /\ calls (events r) = []
  /\ last (printed (events r)) = Some (nl +:+ "❌ Download failed!").
Proof.
  intros Hurl Hcheck r. subst r. rewrite (main_accepted W args fs Hurl).
  revert Hcheck. unfold download_audio, check_ffmpeg.
  destruct (truthy (shutil_which W "ffmpeg"));
    destruct (truthy (shutil_which W "ffprobe"));
    cbv beta iota zeta delta
      [negb orb bind ret print emit result_of fs_after events];
    intros Hcheck; try discriminate Hcheck.
  all: cbv beta iota zeta delta [header_of banner_of];
    split; [reflexivity | split; [reflexivity | split; reflexivity]].
Qed.

Lemma main_wraps_download_audio_witness :
  let W := ready_world (Ok (Some song)) (Ok 0) (Ok "") in
  let args := mk_args video_url "downloads" false in
  let d := download_audio W video_url "downloads" false ∅ in
  let r := main W args ∅ in
  fs_after r = fs_after d
  /\ events r = (header_of args ++ events d ++ banner_of (result_of d))%list
  /\ (result_of d = Ret true -> result_of r = Ret tt)
  /\ (result_of d = Ret false -> result_of r = Exit 1)
  /\ (forall e, result_of d = Raise e ->
      result_of r = Raise e /\ banner_of (result_of d) = []).
Proof.
  intros W args.
  apply (main_wraps_download_audio W args ∅).
  right. apply str_in_occurs. vm_compute. reflexivity.
Defined.

Lemma main_without_ffmpeg_witness :
  let W := sample_world false None (Ok (Some song)) (Ok 0) (Ok "y") in
  let r := main W (mk_args playlist_url "downloads" true) ∅ in
  result_of r = Exit 1
  /\ fs_after r = ∅
  /\ calls (events r) = []
  /\ last (printed (events r)) = Some (nl +:+ "❌ Download failed!").
Proof.
  intros W.
  apply (main_without_ffmpeg W (mk_args playlist_url "downloads" true) ∅).
  - left. apply str_in_occurs. vm_compute. reflexivity.
  - reflexivity.
Defined.

End EntryPoint.

(** ** Further properties of [download_audio] *)

Section Orchestrator.

Ltac absent H := exfalso; revert H; clear; not_in_events.

(** X5. With [skip_confirmation] set, [input] is never called: no probe
    result, and no failure, makes the call wait for the terminal. *)
Theorem skip_confirmation_never_prompts (W : World) (url output_dir : string)
    (fs : gset string) :
  forall prompt,
    ~ In (EvInput prompt) (events (download_audio W url output_dir true fs)).
Proof. intros prompt. exec; not_in_events. Qed.

(** X6. [ydl.download] is called exactly when the probe of the call
    returned a descriptor and either the target is a single item, or
    [skip_confirmation] is set, or the user answered yes.  In particular a
    probe that raised or returned [None], a prompt that raised, and a
    declined prompt all end without a download. *)
Theorem download_is_called_iff (W : World) (url output_dir : string)
    (skip : bool) (fs : gset string) :
  In (EvDownload [url]) (events (download_audio W url output_dir skip fs))
  <-> exists info,
        probed W url output_dir skip fs info /\ go_ahead W skip info.
Proof.
  unfold probed, go_ahead, affirmative.
  exec; (split; [intros Hcall | intros [info [[Hev Hprobe] Hgo]]]).
  all: try (absent Hcall).
  all: try (absent Hev).
  all: try discriminate Hprobe.
  all: try solve [in_events].
  all: try (eexists; split; [split; [solve [in_events] | reflexivity] |];
            first [ left; assumption
                  | right; left; reflexivity
                  | right; right; eexists; split; [reflexivity | assumption] ]).
  all: exfalso; simplify_eq;
    destruct Hgo as [Hgo | [Hgo | [response [Hanswer Hgo]]]];
    simplify_eq; congruence.
Qed.

(** X7. [download_audio] returns [True] exactly when [ydl.download] was
    called and returned, whatever it returned: its return code is not looked
    at.  The last line printed is then the completion line with the
    absolute path of the output directory. *)
Theorem success_iff_download_returned (W : World) (url output_dir : string)
    (skip : bool) (fs : gset string) :
  let r := download_audio W url output_dir skip fs in
  (result_of r = Ret true <->
   In (EvDownload [url]) (events r)
   /\ exists code, snd (ydl_download W (ydl_opts output_dir) [url]) = Ok code)
  /\ (result_of r = Ret true ->
      last (printed (events r))
      = Some (nl +:+ "✅ Download completed! Files saved to: "
                 +:+ os_path_abspath W output_dir)).
Proof.
  intros r. subst r.
  exec; cbn [snd];
    (split; [split; [intros Hres | intros [Hcall [code Hcode]]] |]).
  all: try discriminate Hres.
  all: try (absent Hcall).
  all: try discriminate Hcode.
  all: try (split; [solve [in_events] | eexists; reflexivity]).
  all: try reflexivity.
  all: intros Hres; first [discriminate Hres | reflexivity].
Qed.

(** X8. The calls a run makes to its collaborators are a subsequence of
    [os.makedirs(output_dir)], [YoutubeDL(ydl_opts)], [extract_info(url,
    download=False)], [input(prompt)], [download([url])], end of the session:
    each is made at most once (nothing is retried), with these arguments,
    and in this order. *)
Theorem calls_follow_the_script (W : World) (url output_dir : string)
    (skip : bool) (fs : gset string) :
  sublist (calls (events (download_audio W url output_dir skip fs)))
          (script_calls url output_dir).
Proof.
  unfold script_calls.
  exec; cbn [calls List.filter is_print negb];
    repeat first [ apply sublist_nil | apply sublist_skip | apply sublist_cons ].
Qed.

(** X9. The session is left exactly when it was entered: the end of the
    [with] block is reached on success, on a declined prompt and on every
    exception raised inside the block, and it is not reached when the
    constructor itself raised or the call ended before it. *)
Theorem session_closed_iff_opened (W : World) (url output_dir : string)
    (skip : bool) (fs : gset string) :
  let r := download_audio W url output_dir skip fs in
  In EvClose (events r)
  <-> In (EvSession (ydl_opts output_dir)) (events r)
      /\ ydl_open W (ydl_opts output_dir) = None.
Proof.
  intros r. subst r.
  exec; (split; [intros Hclose | intros [Hopen Hok]]).
  all: try (absent Hclose).
  all: try (absent Hopen).
  all: try discriminate Hok.
  all: try solve [in_events].
  all: split; [solve [in_events] | reflexivity].
Qed.

(** X10. A call removes nothing from the file system, and what it adds is
    at most the output directory, the intermediate directories made with
    it, and the files written by [ydl.download].  A call that made neither
    an [os.makedirs] nor a download leaves the file system as it was. *)
Theorem file_system_frame (W : World) (url output_dir : string)
    (skip : bool) (fs : gset string) :
  let r := download_audio W url output_dir skip fs in
  fs ⊆ fs_after r
  /\ fs_after r ⊆ fs ∪ {[output_dir]} ∪ os_makedirs_parents W output_dir
                  ∪ fst (ydl_download W (ydl_opts output_dir) [url])
  /\ (~ In (EvMakedirs output_dir) (events r) ->
      ~ In (EvDownload [url]) (events r) -> fs_after r = fs).
Proof.
  intros r. subst r.
  exec; cbn [fst]; (split; [clear; set_unfold; intros path; tauto
            | split; [clear; set_unfold; intros path; tauto |]]).
  all: intros Hmk Hdl; first [ reflexivity
                             | exfalso; apply Hmk; solve [in_events]
                             | exfalso; apply Hdl; solve [in_events] ].
Qed.

(** X11. The user is asked for confirmation exactly when the probe of
    the call returned a descriptor with an [entries] key and
    [skip_confirmation] is not set; the prompt is the fixed question. *)
Theorem prompt_is_issued_iff (W : World) (url output_dir : string)
    (skip : bool) (fs : gset string) :
  let r := download_audio W url output_dir skip fs in
  (In (EvInput prompt_text) (events r)
   <-> exists info entries,
         probed W url output_dir skip fs info
         /\ info_entries info = Some entries /\ skip = false)
  /\ (forall prompt, In (EvInput prompt) (events r) -> prompt = prompt_text).
Proof.
  intros r. subst r. unfold probed.
  exec;
    (split; [split; [intros Hask
                    | intros [info [entries [[Hev Hprobe] [Hentries Hskip]]]]]
            |]).
  all: try (absent Hask).
  all: try (absent Hev).
  all: try discriminate Hprobe.
  all: try discriminate Hskip.
  all: try solve [in_events].
  all: try (eexists; eexists; split; [split; [solve [in_events] | reflexivity] |];
            split; [eassumption | reflexivity]).
  all: try (exfalso; simplify_eq; congruence).
  all: intros prompt Hin; cbn [In] in Hin;
    repeat (destruct Hin as [Hin|Hin]; [try discriminate Hin; congruence |]);
    destruct Hin.
Qed.

(** X12. A probe result without a [title] key is reported under the name
    "Unknown", as a playlist or as a video according to its [entries] key;
    the missing key is no error. *)
Theorem missing_title_is_unknown (W : World) (url output_dir : string)
    (skip : bool) (fs : gset string) (info : info_dict) :
  probed W url output_dir skip fs info ->
  info_title info = None ->
  let r := download_audio W url output_dir skip fs in
  In (EvPrint (match info_entries info with
               | Some _ => "Found playlist: Unknown"
               | None => "Found video: Unknown"
               end)) (events r).
Proof.
  intros [Hev Hprobe] Htitle r. subst r. revert Hev.
  exec; intros Hev; try (absent Hev).
  all: unfold get_title; rewrite Htitle; solve [in_events].
Qed.

Lemma total_is_available_plus_unavailable (entries : list (option entry)) :
  total_of entries = available_of entries + unavailable_of entries.
Proof.
  unfold total_of, available_of, unavailable_of, is_None.
  induction entries as [|e es IH]; [reflexivity|].
  destruct e; cbn [List.filter is_not_None negb length] in *; lia.
Qed.

Lemma unavailable_positive_iff (entries : list (option entry)) :
  0 < unavailable_of entries <-> In None entries.
Proof.
  unfold unavailable_of, is_None.
  induction entries as [|e es IH]; cbn [List.filter In length].
  - split; [simpl; lia | intros []].
  - destruct e; cbn [is_not_None negb length].
    + rewrite IH. split; [auto | intros [H|H]; [discriminate H | exact H]].
    + split; [auto | lia].
Qed.

(** The warning lines of a run that probed a collection. *)
Lemma warnings_of_collection (W : World) (url output_dir : string)
    (skip : bool) (fs : gset string) (info : info_dict)
    (entries : list (option entry)) :
  probed W url output_dir skip fs info ->
  info_entries info = Some entries ->
  List.filter is_warning
    (printed (events (download_audio W url output_dir skip fs)))
  = if total_of entries =? available_of entries then []
    else [warning_line (total_of entries - available_of entries)].
Proof.
  intros [Hev Hprobe] Hentries. revert Hev.
  exec; intros Hev; try (absent Hev).
  all: vm_compute; reflexivity.
Qed.

(** X13. For a collection the unavailability warning is printed exactly
    when some entry is [None], and the number it names is the number of
    [None] entries, which is at least 1 and at most the number of entries. *)
Theorem warning_iff_some_entry_is_None (W : World) (url output_dir : string)
    (skip : bool) (fs : gset string) (info : info_dict)
    (entries : list (option entry)) :
  probed W url output_dir skip fs info ->
  info_entries info = Some entries ->
  let warnings :=
    List.filter is_warning
      (printed (events (download_audio W url output_dir skip fs))) in
  (warnings <> [] <-> In None entries)
  /\ (In None entries ->
      warnings = [warning_line (unavailable_of entries)]
      /\ 1 <= unavailable_of entries <= Z.of_nat (length entries)).
Proof.
  intros Hprobed Hentries warnings. subst warnings.
  rewrite (warnings_of_collection W url output_dir skip fs info entries
             Hprobed Hentries).
  pose proof (total_is_available_plus_unavailable entries) as Hsum.
  pose proof (unavailable_positive_iff entries) as Hpos.
  pose proof (available_le_total entries) as Hle.
  fold (total_of entries).
  destruct (total_of entries =? available_of entries) eqn:E.
  - apply Z.eqb_eq in E. split.
    + split; [intros H; contradiction | intros H; apply Hpos in H; lia].
    + intros H. apply Hpos in H. lia.
  - apply Z.eqb_neq in E. split.
    + split; [intros _; apply Hpos; lia | intros _ H; discriminate H].
    + intros H. apply Hpos in H. split; [| lia].
      replace (total_of entries - available_of entries)
        with (unavailable_of entries) by lia.
      reflexivity.
Qed.



Ltac reached_probe :=
  split; [vm_compute; solve [in_events] | reflexivity].

Lemma missing_title_is_unknown_witness :
  let W := ready_world (Ok (Some empty_list)) (Ok 0) (Ok "y") in
  let r := download_audio W playlist_url "downloads" true ∅ in
  In (EvPrint "Found playlist: Unknown") (events r).
Proof.
  intros W.
  apply (missing_title_is_unknown W playlist_url "downloads" true ∅
           empty_list).
  - reached_probe.
  - reflexivity.
Defined.

Lemma warning_iff_some_entry_is_None_witness :
  let W := ready_world (Ok (Some long_list)) (Ok 0) (Ok "y") in
  let warnings :=
    List.filter is_warning
      (printed (events (download_audio W playlist_url "downloads" false ∅))) in
  (warnings <> [] <-> In None five_entries)
  /\ (In None five_entries ->
      warnings = [warning_line (unavailable_of five_entries)]
      /\ 1 <= unavailable_of five_entries <= Z.of_nat (length five_entries)).
Proof.
  intros W.
  apply (warning_iff_some_entry_is_None W playlist_url "downloads" false ∅
           long_list five_entries).
  - reached_probe.
  - reflexivity.
Defined.

End Orchestrator.
